(** * Genkit (Python): loop-local client cache and Dev UI reflection server

    A shallow embedding of

    - [genkit/core/_loop_local.py]: [_loop_local_client], the getter that
      caches one resource instance per running event loop;
    - [genkit/ai/_base_async.py]: [_ReflectionServer.startup],
      [GenkitBase.__init__], [GenkitBase._start_reflection_background] and
      [GenkitBase.run_main].

    Python objects are compared by identity ([is]), so an object is modelled
    by its address.  Callables with side effects are state transformers;
    a call either returns a value or raises. *)

From Stdlib Require Import ZArith Lia String.
From stdpp Require Import base option list gmap strings.

Local Open Scope string_scope.

(** ** Python exceptions and call outcomes *)

(** Where an exception class sits in the hierarchy decides which handlers see
    it: [except Exception] only catches [ClsException]; [CancelledError],
    [SystemExit] and [KeyboardInterrupt] derive from [BaseException] only;
    asyncio stores every exception of a task in the task, except the two
    of [ClsExit], which it re-raises through the event loop. *)
Inductive exc_class := ClsException | ClsCancelled | ClsExit.

Record exc := { exc_cls : exc_class; exc_name : string }.

Definition RuntimeError : exc := {| exc_cls := ClsException; exc_name := "RuntimeError" |}.
Definition ValueError : exc := {| exc_cls := ClsException; exc_name := "ValueError" |}.
Definition OSError : exc := {| exc_cls := ClsException; exc_name := "OSError" |}.
Definition SystemExit : exc := {| exc_cls := ClsExit; exc_name := "SystemExit" |}.
Definition KeyboardInterrupt : exc := {| exc_cls := ClsExit; exc_name := "KeyboardInterrupt" |}.
Definition CancelledError : exc := {| exc_cls := ClsCancelled; exc_name := "CancelledError" |}.

(** [isinstance(e, Exception)] *)
Definition is_Exception (e : exc) : bool :=
  match exc_cls e with ClsException => true | _ => false end.

(** How a call that comes back ends. *)
Inductive outcome (A : Type) : Type :=
| Return (a : A)
| Raise (e : exc).
Arguments Return {A} a.
Arguments Raise {A} e.

(** A Python value as far as the cache can tell values apart: [None], or an
    object known by its identity. *)
Inductive pyval := PyNone | PyObj (addr : positive).

Definition is_not_None (v : pyval) : bool :=
  match v with PyNone => false | PyObj _ => true end.

(** ** [genkit/core/_loop_local.py] *)
Module LoopLocal.

(** An event loop object, by identity.  It is the key of the
    [WeakKeyDictionary]. *)
Definition loop := positive.

Section Client.
(** Whatever state the factory closes over and mutates. *)
Context {W : Type}.
(** [factory: Callable[[], T]]: a zero-argument call that returns a value
    (any value, [None] included) or raises, with side effects on [W]. *)
Variable factory : W -> outcome pyval * W.

(** The closure of [_get]: the dictionary [by_loop] and the factory's
    state.  The lock is held for the whole body below the loop look-up and
    released on every exit of the [with] block, so calls of the getter are
    atomic with respect to each other and the lock has no state of its own
    between calls.  [made] is a ghost field: the loops on whose behalf the
    factory has been invoked, most recent first. *)
Record client := Client {
  by_loop : gmap loop pyval;
  world : W;
  made : list loop
}.

(** [_loop_local_client(factory)]: an empty dictionary. *)
Definition _loop_local_client (w : W) : client :=
  {| by_loop := ∅; world := w; made := [] |}.

(** [asyncio.get_running_loop()]: the caller's thread either runs a loop
    or does not. *)
Definition get_running_loop (ctx : option loop) : outcome loop :=
  match ctx with
  | Some l => Return l
  | None => Raise RuntimeError
  end.

(** [by_loop.get(loop)]: [None] when the key is absent. *)
Definition dict_get (d : gmap loop pyval) (l : loop) : pyval :=
  default PyNone (d !! l).

(** The getter [_get], called from a thread whose running loop is [ctx]. *)
Definition _get (ctx : option loop) (c : client) : outcome pyval * client :=
  match get_running_loop ctx with
  | Raise e => (Raise e, c)
  | Return l =>
      let existing := dict_get (by_loop c) l in
      if is_not_None existing then (Return existing, c)
      else
        match factory (world c) with
        | (Raise e, w') =>
            (Raise e, {| by_loop := by_loop c; world := w'; made := l :: made c |})
        | (Return created, w') =>
            (Return created,
             {| by_loop := <[l := created]> (by_loop c); world := w';
                made := l :: made c |})
        end
  end.

(** What happens to a client over time: the getter is called from some
    thread, or the garbage collector reclaims a loop that nothing
    references any more and the weak dictionary drops its entry. *)
Inductive event :=
| Call (ctx : option loop)
| Reclaim (l : loop).

Definition step (c : client) (e : event) : client :=
  match e with
  | Call ctx => snd (_get ctx c)
  | Reclaim l => {| by_loop := delete l (by_loop c); world := world c; made := made c |}
  end.

Fixpoint run (es : list event) (c : client) : client :=
  match es with
  | [] => c
  | e :: es' => run es' (step c e)
  end.

(** A loop that still makes calls is referenced, hence not reclaimed. *)
Definition alive_throughout (l : loop) (es : list event) : Prop :=
  Forall (fun e => e <> Reclaim l) es.

(** The factory's [n]-th invocation, counted from 0, when its state
    started as [w]. *)
Fixpoint world_after (n : nat) (w : W) : W :=
  match n with
  | O => w
  | S k => snd (factory (world_after k w))
  end.

Definition result_at (n : nat) (w : W) : outcome pyval :=
  fst (factory (world_after n w)).

(** A factory that hands out a new object at every invocation. *)
Definition never_repeats (w : W) : Prop :=
  forall i j a, i <> j ->
    result_at i w = Return (PyObj a) -> result_at j w <> Return (PyObj a).

(** Every object in the dictionary is what some invocation of the factory
    returned, an invocation made for the loop it is stored under; and the
    factory's state is the one those invocations left. *)
Definition accounted (w0 : W) (c : client) : Prop :=
  world c = world_after (length (made c)) w0 /\
  forall l a, by_loop c !! l = Some (PyObj a) ->
    exists i, rev (made c) !! i = Some l /\ result_at i w0 = Return (PyObj a).

(** How often the factory was invoked for loop [l]. *)
Definition invocations_for (l : loop) (c : client) : nat :=
  length (filter (fun l' => l' = l) (made c)).

(** How often loop [l] is reclaimed in [es]. *)
Fixpoint reclaims_of (l : loop) (es : list event) : nat :=
  match es with
  | [] => 0
  | Reclaim l' :: es' => (if decide (l' = l) then 1 else 0) + reclaims_of l es'
  | Call _ :: es' => reclaims_of l es'
  end.

(** The events that concern loop [l]: its own calls and its reclamation. *)
Definition concerns (l : loop) (e : event) : Prop :=
  e = Call (Some l) \/ e = Reclaim l.

(** 1 while loop [l] has no object in the dictionary, 0 once it has. *)
Definition slack (l : loop) (c : client) : nat :=
  if is_not_None (dict_get (by_loop c) l) then 0 else 1.

(** A factory that returns an object, never [None] and never an
    exception, whatever its state. *)
Definition always_returns_object : Prop :=
  forall w, exists a w', factory w = (Return (PyObj a), w').

End Client.

Arguments client W : clear implicits.

(** Factories used as concrete inputs. *)

(** [lambda: object()]: a new object per call. *)
Definition fresh_object (next : positive) : outcome pyval * positive :=
  (Return (PyObj next), Pos.succ next).

(** [lambda: SHARED]: the same module-level object at every call. *)
Definition shared_object (u : unit) : outcome pyval * unit :=
  (Return (PyObj 7%positive), u).

(** A factory that has nothing to offer the first time ([None]) and a new
    object from then on. *)
Definition none_then_object (n : positive) : outcome pyval * positive :=
  match n with
  | xH => (Return PyNone, 2%positive)
  | _ => (Return (PyObj n), Pos.succ n)
  end.

(** [lambda: None] *)
Definition always_none (u : unit) : outcome pyval * unit := (Return PyNone, u).

(** A factory that fails on its first call and works afterwards. *)
Definition fails_once (n : positive) : outcome pyval * positive :=
  match n with
  | xH => (Raise OSError, 2%positive)
  | _ => (Return (PyObj n), Pos.succ n)
  end.

End LoopLocal.

(** ** [genkit/ai/_base_async.py] *)
Module BaseAsync.

(** *** Computations: state, exceptions, and calls that never come back *)

(** A call completes with an outcome, or never does ([await] on something
    that is never resumed, a blocking wait that is never released). *)
Inductive completion (A : Type) : Type :=
| Done (o : outcome A)
| Never.
Arguments Done {A} o.
Arguments Never {A}.

Record ServerSpec := { scheme : string; host : string; port : Z }.

Inductive log_level := DEBUG | INFO | WARNING | ERROR.

Inductive signal := SIGINT | SIGTERM.

(** What the process does that can be seen from outside, in order. *)
Inductive event :=
| Log (lvl : log_level) (msg : string)
| LogSpec (lvl : log_level) (msg : string) (spec : ServerSpec)
| DefaultModelSet (model : option string)
| FormatDefined (fmt : string)
| PluginRegistered (name : string)
| GenerateActionDefined
| ThreadStarted (name : string)
| SocketBound (h : string) (p : Z)
| RuntimeManagerEntered (spec : ServerSpec)
| RuntimeManagerExited
| ServerTaskCreated
| ReadySet
| ReadyConfirmed
| RuntimeFileWritten (spec : ServerSpec).

(** One [GenkitBase] instance in its process. *)
Record proc := Proc {
  GENKIT_ENV_dev : bool;                          (* what [is_dev_environment()] answers *)
  _reflection_ready : bool;                       (* the flag of the [threading.Event] *)
  _reflection_server_spec : option ServerSpec;
  should_exit : bool;                             (* [server.should_exit] *)
  threads : list string;                          (* daemon threads started so far *)
  registry : list string;                         (* names of the registered plugins *)
  trace : list event                              (* oldest first *)
}.

Definition M (A : Type) : Type := proc -> completion A * proc.

Definition ret {A} (a : A) : M A := fun p => (Done (Return a), p).
Definition raise {A} (e : exc) : M A := fun p => (Done (Raise e), p).
Definition never {A} : M A := fun p => (Never, p).

(** A call with no effect on the instance that ends as [c]. *)
Definition ends_as {A} (c : completion A) : M A := fun p => (c, p).

Definition bind {A B} (m : M A) (k : A -> M B) : M B := fun p =>
  match m p with
  | (Done (Return a), p') => k a p'
  | (Done (Raise e), p') => (Done (Raise e), p')
  | (Never, p') => (Never, p')
  end.

Declare Scope M_scope.
Delimit Scope M_scope with M.
Bind Scope M_scope with M.
Notation "x ← y ; z" := (bind y (fun x => z))
  (at level 20, y at level 100, z at level 200, only parsing) : M_scope.
Notation "' x ← y ; z" := (bind y (fun x => z))
  (at level 20, x pattern, y at level 100, z at level 200, only parsing) : M_scope.
Notation "x ;; z" := (bind x (fun _ => z))
  (at level 100, z at level 200, only parsing, right associativity) : M_scope.
Local Open Scope M_scope.

(** [try: body finally: fin].  The [finally] block runs however the body
    completes; it does not run if the body never completes. *)
Definition try_finally {A} (body : M A) (fin : M unit) : M A := fun p =>
  match body p with
  | (Done o, p') =>
      match fin p' with
      | (Done (Return _), p'') => (Done o, p'')
      | (Done (Raise e), p'') => (Done (Raise e), p'')
      | (Never, p'') => (Never, p'')
      end
  | (Never, p') => (Never, p')
  end.

(** [try: body except Exception: handler] *)
Definition try_except_Exception {A} (body : M A) (handler : M A) : M A := fun p =>
  match body p with
  | (Done (Raise e), p') => if is_Exception e then handler p' else (Done (Raise e), p')
  | r => r
  end.

(** [try: body except anyio.get_cancelled_exc_class(): pass] *)
Definition try_except_cancelled (body : M unit) : M unit := fun p =>
  match body p with
  | (Done (Raise e), p') =>
      match exc_cls e with
      | ClsCancelled => (Done (Return tt), p')
      | _ => (Done (Raise e), p')
      end
  | r => r
  end.

Fixpoint for_each {A} (xs : list A) (body : A -> M unit) : M unit :=
  match xs with
  | [] => ret tt
  | x :: xs' => body x ;; for_each xs' body
  end.

(** State accessors. *)
Definition emit (e : event) : M unit := fun p =>
  (Done (Return tt),
   {| GENKIT_ENV_dev := GENKIT_ENV_dev p; _reflection_ready := _reflection_ready p;
      _reflection_server_spec := _reflection_server_spec p; should_exit := should_exit p;
      threads := threads p; registry := registry p; trace := (trace p ++ [e])%list |}).

Definition set_ready_flag (b : bool) : M unit := fun p =>
  (Done (Return tt),
   {| GENKIT_ENV_dev := GENKIT_ENV_dev p; _reflection_ready := b;
      _reflection_server_spec := _reflection_server_spec p; should_exit := should_exit p;
      threads := threads p; registry := registry p; trace := trace p |}).

Definition set_spec (s : option ServerSpec) : M unit := fun p =>
  (Done (Return tt),
   {| GENKIT_ENV_dev := GENKIT_ENV_dev p; _reflection_ready := _reflection_ready p;
      _reflection_server_spec := s; should_exit := should_exit p;
      threads := threads p; registry := registry p; trace := trace p |}).

Definition set_should_exit (b : bool) : M unit := fun p =>
  (Done (Return tt),
   {| GENKIT_ENV_dev := GENKIT_ENV_dev p; _reflection_ready := _reflection_ready p;
      _reflection_server_spec := _reflection_server_spec p; should_exit := b;
      threads := threads p; registry := registry p; trace := trace p |}).

Definition add_thread (name : string) : M unit := fun p =>
  (Done (Return tt),
   {| GENKIT_ENV_dev := GENKIT_ENV_dev p; _reflection_ready := _reflection_ready p;
      _reflection_server_spec := _reflection_server_spec p; should_exit := should_exit p;
      threads := (threads p ++ [name])%list; registry := registry p;
      trace := trace p |}).

Definition set_env (dev : bool) (p : proc) : proc :=
  {| GENKIT_ENV_dev := dev; _reflection_ready := _reflection_ready p;
     _reflection_server_spec := _reflection_server_spec p; should_exit := should_exit p;
     threads := threads p; registry := registry p; trace := trace p |}.

Definition read {A} (f : proc -> A) : M A := fun p => (Done (Return (f p)), p).

Definition get_should_exit : M bool := read should_exit.
Definition get_spec : M (option ServerSpec) := read _reflection_server_spec.

(** [genkit.core.environment.is_dev_environment()] *)
Definition is_dev_environment : M bool := read GENKIT_ENV_dev.

Definition log (lvl : log_level) (msg : string) : M unit := emit (Log lvl msg).

(** *** The registry *)

(** [super().__init__()]: the instance gets a registry of its own, with
    nothing in it. *)
Definition new_registry : M unit := fun p =>
  (Done (Return tt),
   {| GENKIT_ENV_dev := GENKIT_ENV_dev p; _reflection_ready := _reflection_ready p;
      _reflection_server_spec := _reflection_server_spec p; should_exit := should_exit p;
      threads := threads p; registry := []; trace := trace p |}).

(** [name in registry] *)
Definition registered (name : string) (reg : list string) : bool :=
  existsb (String.eqb name) reg.

(** Modelled from the spec: [genkit.core.registry.Registry.register_plugin],
    whose source is not part of the files at hand.  It records the plugin
    under its name, and raises [ValueError] for a name that is registered
    already. *)
Definition register_plugin (name : string) : M unit := fun p =>
  if registered name (registry p) then (Done (Raise ValueError), p)
  else
    (Done (Return tt),
     {| GENKIT_ENV_dev := GENKIT_ENV_dev p; _reflection_ready := _reflection_ready p;
        _reflection_server_spec := _reflection_server_spec p; should_exit := should_exit p;
        threads := threads p; registry := (registry p ++ [name])%list;
        trace := (trace p ++ [PluginRegistered name])%list |}).

(** *** [threading.Event] *)

(** [Event()] *)
Definition Event_new : M unit := set_ready_flag false.

(** [ready.set()] *)
Definition Event_set : M unit := set_ready_flag true ;; emit ReadySet.

(** [ready.wait()] with no timeout: returns [True] once the flag is set and
    blocks the calling thread until then. *)
Definition Event_wait : M bool := fun p =>
  if _reflection_ready p then (Done (Return true), p) else (Never, p).

(** [ready.is_set()] *)
Definition Event_is_set : M bool := read _reflection_ready.

(** *** Collaborators outside the two files *)

(** A listening socket, by the address [getsockname()] reports. *)
Definition socket : Type := string * Z.

(** [uvicorn.Server] is a third-party class.  All this development needs of
    it is which of its effects a call can have, so one run of it is described
    by what it chose to do: whether [Server.startup] bound a listening socket
    itself (it only does when it was given none), whether it set
    [should_exit], how the call ended, and how the serving loop after it
    ends. *)
Record uvicorn := Uvicorn {
  uv_binds : bool;
  uv_gives_up : bool;
  uv_startup : completion unit;
  uv_main_loop : completion unit
}.

(** [_ReflectionServer(config, ready)]: the configuration it was made with.
    Its [_ready] is the instance's event, its [should_exit] is in [proc]. *)
Record ReflectionServer := { config_host : string; config_port : Z }.

(** [uvicorn.Server.startup(sockets)], the method the subclass overrides. *)
Definition Server_startup (uv : uvicorn) (self : ReflectionServer)
    (sockets : option (list socket)) : M unit :=
  match sockets with
  | None => if uv_binds uv then emit (SocketBound (config_host self) (config_port self))
            else ret tt
  | Some _ => ret tt
  end ;;
  (if uv_gives_up uv then set_should_exit true else ret tt) ;;
  ends_as (uv_startup uv).

(** [uvicorn.Server.main_loop()] *)
Definition Server_main_loop (uv : uvicorn) : M unit := ends_as (uv_main_loop uv).

(** Modelled from the spec: [genkit.ai._runtime.RuntimeManager], whose source
    is not part of the files at hand.  The spec has the manifest support a
    lazy mode that defers the actual write until it is explicitly triggered,
    and has the record removed on exit. *)
Definition write_runtime_file (spec : ServerSpec) : M unit :=
  emit (RuntimeFileWritten spec).

Definition with_RuntimeManager {A} (spec : ServerSpec) (lazy_write : bool)
    (body : M A) : M A :=
  emit (RuntimeManagerEntered spec) ;;
  (if lazy_write then ret tt else write_runtime_file spec) ;;
  try_finally body (emit RuntimeManagerExited).

(** Modelled from the spec: [genkit.aio.loop.run_loop], whose source is not
    part of the files at hand.  The spec has it run the task to completion in
    a dedicated top-level execution context and return its result or
    propagate its failure directly. *)
Definition run_loop {A} (coro : completion A) : M A := ends_as coro.

(** [await coro] *)
Definition await {A} (coro : completion A) : M A := ends_as coro.

(** An event loop, by identity: the execution context of the coroutines it
    runs. *)
Definition loop : Type := LoopLocal.loop.

(** [asyncio.run(main)]: the result of [main], or its exception. *)
Definition asyncio_run {A} (main : M A) : M A := main.

(** [anyio.run(main)]: a new event loop [l] runs [main], which finds itself
    on [l]; the result of [main], or its exception. *)
Definition anyio_run {A} (l : loop) (main : loop -> M A) : M A := main l.

(** An argument in the [plugins] list: an instance of [Plugin] or anything
    else. *)
Inductive plugin_arg := IsPlugin (name : string) | NotPlugin.

(** *** [_ReflectionServer] *)

(** [_ReflectionServer.startup] *)
Definition startup (uv : uvicorn) (self : ReflectionServer)
    (sockets : option (list socket)) : M unit :=
  try_finally (Server_startup uv self sockets) Event_set.

(** A coroutine that runs as a task of an event loop beside others: its
    first part, and what it goes on with to its end. *)
Record task := Task { task_start : M unit; task_rest : M unit }.

(** [uvicorn.Server.serve(sockets)], as far as it concerns the subclass: it
    awaits [self.startup], which dispatches to the override, and goes on to
    its main loop unless [should_exit] is set by then. *)
Definition serve (uv : uvicorn) (self : ReflectionServer)
    (sockets : option (list socket)) : task :=
  {| task_start := startup uv self sockets;
     task_rest := se ← get_should_exit;
                  if se then ret tt else Server_main_loop uv |}.

(** [_make_reflection_server(registry, spec, ready)] *)
Definition _make_reflection_server (spec : ServerSpec) : ReflectionServer :=
  {| config_host := host spec; config_port := port spec |}.

(** *** [GenkitBase] *)

Section GenkitBase.
(** [genkit.blocks.formats.built_in_formats] *)
Variable built_in_formats : list string.

(** [GenkitBase._initialize_registry] *)
Definition _initialize_registry (model : option string)
    (plugins : option (list plugin_arg)) : M unit :=
  emit (DefaultModelSet model) ;;
  for_each built_in_formats (fun fmt => emit (FormatDefined fmt)) ;;
  match plugins with
  | None | Some [] => log WARNING "No plugins provided to Genkit"
  | Some ps =>
      for_each ps (fun plugin =>
        match plugin with
        | IsPlugin name => register_plugin name
        | NotPlugin => raise ValueError
        end)
  end.

(** [socket.socket(AF_INET, SOCK_STREAM)], [sock.bind((h, 0))],
    [sock.listen(2048)], [sock.getsockname()]: the operating system hands
    out a port, or the bind fails. *)
Definition bind_ephemeral (os_port : option Z) (h : string) : M socket :=
  match os_port with
  | Some n => emit (SocketBound h n) ;; ret (h, n)
  | None => raise OSError
  end.

(** [await asyncio.to_thread(self._reflection_ready.wait)], the first point
    at which [_run] gives up the event loop.  The server task created just
    before is the only other task of this loop, so it runs now, through the
    server's start-up.  An exception of class [ClsExit] there leaves the
    loop, and [asyncio.run] cancels [_run] where it waits and raises the
    exception.  Otherwise [_run] goes on once the worker thread has come
    back from [wait], while the rest of the server task goes on beside it;
    how the task ends is kept in the task, for whoever awaits it. *)
Definition await_ready (server_task : task) : M (completion unit) := fun p =>
  let '(started, p1) := task_start server_task p in
  let settled := match started with
                 | Done (Return _) => fst (task_rest server_task p1)
                 | _ => started
                 end in
  let resume := (Event_wait ;; emit ReadyConfirmed ;; ret settled) p1 in
  match started with
  | Done (Raise e) =>
      match exc_cls e with
      | ClsExit => (Done (Raise e), p1)
      | _ => resume
      end
  | _ => resume
  end.

(** [await server_task] *)
Definition await_task (settled : completion unit) : M unit := ends_as settled.

(** [_run], from the line after the readiness wait to its end. *)
Definition _run_resumed (spec : ServerSpec) (server_task : completion unit) : M unit :=
  se ← get_should_exit;
  if se then
    emit (LogSpec WARNING "Reflection server failed to start." spec) ;;
    ret tt
  else
    write_runtime_file spec ;;
    emit (LogSpec INFO "Genkit Dev UI reflection server running" spec) ;;
    await_task server_task.

(** [_run], the coroutine of the background thread. *)
Definition _run (os_port : option Z) (uv : uvicorn) : M unit :=
  spec0 ← get_spec;
  '(spec, sockets) ← match spec0 with
                     | None =>
                         sock ← bind_ephemeral os_port "127.0.0.1";
                         let spec := {| scheme := "http"; host := fst sock; port := snd sock |} in
                         set_spec (Some spec) ;;
                         ret (spec, Some [sock])
                     | Some spec => ret (spec, None)
                     end;
  let server := _make_reflection_server spec in
  with_RuntimeManager spec true
    (let server_task := serve uv server sockets in
     emit ServerTaskCreated ;;
     settled ← await_ready server_task;
     _run_resumed spec settled).

Definition _thread_main (os_port : option Z) (uv : uvicorn) : M unit :=
  asyncio_run (_run os_port uv).

(** [GenkitBase._start_reflection_background]: [t.start()] on a daemon
    thread whose target is [_thread_main]. *)
Definition _start_reflection_background : M unit :=
  add_thread "genkit-reflection-server" ;;
  emit (ThreadStarted "genkit-reflection-server").

(** [GenkitBase.__init__] *)
Definition __init__ (plugins : option (list plugin_arg)) (model : option string)
    (reflection_server_spec : option ServerSpec) : M unit :=
  new_registry ;;
  set_spec reflection_server_spec ;;
  Event_new ;;
  _initialize_registry model plugins ;;
  emit GenerateActionDefined ;;
  dev ← is_dev_environment;
  if dev then _start_reflection_background else ret tt.

(** The wait at the end of [dev_runner]: [anyio.sleep_forever()] inside a
    task group that also runs [_handle_sigterm].  Without a signal it never
    ends.  On SIGTERM the handler cancels the group's own scope, which
    absorbs the cancellation.  On SIGINT the runner cancels the main task,
    and the cancellation exception comes out of the [async with]. *)
Definition sleep_until_signal (sig : option signal) : M unit :=
  match sig with
  | None => never
  | Some SIGTERM => ret tt
  | Some SIGINT => raise CancelledError
  end.

(** [dev_runner], the coroutine [run_main] defines in development mode,
    running on loop [l].  What the user's coroutine does may depend on the
    loop that runs it, and so may the signal that reaches a loop: [coro l]
    is how the coroutine ends when it is awaited on [l], and [sig l] the
    signal that ends a wait on [l], if any. *)
Definition dev_runner (coro : loop -> completion pyval) (sig : loop -> option signal)
    (l : loop) : M pyval :=
  user_result ← try_except_Exception
                  (r ← await (coro l); log DEBUG "User coroutine completed successfully." ;; ret r)
                  (log ERROR "User coroutine failed" ;; ret PyNone);
  log INFO "Script done â€” Dev UI running. Press Ctrl+C to stop." ;;
  try_except_cancelled (sleep_until_signal (sig l)) ;;
  log INFO "Dev UI server stopped." ;;
  ret user_result.

(** [GenkitBase.run_main], with the event loop that the runner creates for
    the call, [l], made explicit. *)
Definition run_main_on (l : loop) (coro : loop -> completion pyval)
    (sig : loop -> option signal) : M pyval :=
  dev ← is_dev_environment;
  if negb dev then
    log INFO "Running in production mode." ;;
    run_loop (coro l)
  else
    log INFO "Running in development mode." ;;
    anyio_run l (dev_runner coro sig).

(** [GenkitBase.run_main] for a coroutine and a signal that are the same
    whatever loop runs them. *)
Definition run_main (coro : completion pyval) (sig : option signal) : M pyval :=
  run_main_on 1%positive (fun _ => coro) (fun _ => sig).

(** What can happen to an instance once it is constructed: the host calls
    [run_main], the environment variable changes, or a background thread
    that was started gets to run. *)
Inductive action :=
| CallRunMain (coro : completion pyval) (sig : option signal)
| EnvChanges (dev : bool)
| ThreadRuns (os_port : option Z) (uv : uvicorn).

Definition perform (p : proc) (a : action) : proc :=
  match a with
  | CallRunMain coro sig => snd (run_main coro sig p)
  | EnvChanges dev => set_env dev p
  | ThreadRuns os_port uv =>
      match threads p with
      | [] => p
      | _ :: _ => snd (_thread_main os_port uv p)
      end
  end.

Definition lifetime (acts : list action) (p : proc) : proc := foldl perform p acts.

End GenkitBase.

(** The process before the instance is constructed. *)
Definition boot (dev : bool) : proc :=
  {| GENKIT_ENV_dev := dev; _reflection_ready := false; _reflection_server_spec := None;
     should_exit := false; threads := []; registry := []; trace := [] |}.

(** *** Orderings on a trace *)



Definition is_ready_set (e : event) : Prop := e = ReadySet.
Definition is_ready_confirmed (e : event) : Prop := e = ReadyConfirmed.
Definition is_manifest_write (e : event) : Prop := exists s, e = RuntimeFileWritten s.
Definition is_start_failure_warning (e : event) : Prop :=
  exists s, e = LogSpec WARNING "Reflection server failed to start." s.



Definition is_ready_setb (e : event) : bool :=
  match e with ReadySet => true | _ => false end.
Definition is_ready_confirmedb (e : event) : bool :=
  match e with ReadyConfirmed => true | _ => false end.
Definition is_manifest_writeb (e : event) : bool :=
  match e with RuntimeFileWritten _ => true | _ => false end.

(** [p'] differs from [p] in its trace and its registry at most. *)
Definition same_instance (p p' : proc) : Prop :=
  GENKIT_ENV_dev p' = GENKIT_ENV_dev p /\
  _reflection_ready p' = _reflection_ready p /\
  _reflection_server_spec p' = _reflection_server_spec p /\
  should_exit p' = should_exit p /\
  threads p' = threads p.

(** A computation that touches nothing of the instance but its trace and its
    registry. *)
Definition only_traces {A} (m : M A) : Prop := forall p, same_instance p (snd (m p)).

(** [p] with [es] appended to its trace. *)
Definition add_events (es : list event) (p : proc) : proc :=
  {| GENKIT_ENV_dev := GENKIT_ENV_dev p; _reflection_ready := _reflection_ready p;
     _reflection_server_spec := _reflection_server_spec p; should_exit := should_exit p;
     threads := threads p; registry := registry p; trace := (trace p ++ es)%list |}.

(** [isinstance(plugin, Plugin)] *)
Definition is_Plugin (a : plugin_arg) : bool :=
  match a with IsPlugin _ => true | NotPlugin => false end.





Definition is_log (e : event) : Prop := exists lvl msg, e = Log lvl msg.
Definition is_logb (e : event) : bool :=
  match e with Log _ _ => true | _ => false end.

(** Runs of the third-party server used as concrete inputs. *)

(** The server starts and serves for ever. *)
Definition uv_serves : uvicorn :=
  {| uv_binds := true; uv_gives_up := false;
     uv_startup := Done (Return tt); uv_main_loop := Never |}.

(** The server gives up during start-up and says so in [should_exit]. *)
Definition uv_gives_up_quietly : uvicorn :=
  {| uv_binds := false; uv_gives_up := true;
     uv_startup := Done (Return tt); uv_main_loop := Never |}.

(** The server cannot bind and leaves through [sys.exit]. *)
Definition uv_exits : uvicorn :=
  {| uv_binds := false; uv_gives_up := false;
     uv_startup := Done (Raise SystemExit); uv_main_loop := Never |}.

(** The start-up of the server never completes. *)
Definition uv_hangs : uvicorn :=
  {| uv_binds := true; uv_gives_up := false;
     uv_startup := Never; uv_main_loop := Never |}.

(** The start-up of the server raises an ordinary exception and leaves
    [should_exit] alone. *)
Definition uv_raises : uvicorn :=
  {| uv_binds := false; uv_gives_up := false;
     uv_startup := Done (Raise RuntimeError); uv_main_loop := Never |}.


(** A coroutine that fails with [ValueError] on loop 5 and would never
    complete on any other loop, and a SIGTERM that reaches loop 5 only. *)
Definition fails_on_loop_5 (l : loop) : completion pyval :=
  if Pos.eqb l 5 then Done (Raise ValueError) else Never.
Definition sigterm_on_loop_5 (l : loop) : option signal :=
  if Pos.eqb l 5 then Some SIGTERM else None.

(** The server spec the thread works with: the one it was given, or the
    loopback address with the port the operating system chose. *)
Definition resolved_spec (given : option ServerSpec) (os_port : option Z)
    : option ServerSpec :=
  match given with
  | Some s => Some s
  | None =>
      match os_port with
      | Some n => Some {| scheme := "http"; host := "127.0.0.1"; port := n |}
      | None => None
      end
  end.

Definition spec_3100 : ServerSpec := {| scheme := "http"; host := "127.0.0.1"; port := 3100 |}.

End BaseAsync.

(** * Properties *)

(** ** The loop-local cache *)
Module LoopLocalFacts.
Import LoopLocal.

Section Getter.
Context {W : Type} (factory : W -> outcome pyval * W).

Abbreviation get := (_get factory).
Abbreviation client := (client W).

Lemma dict_get_object (d : gmap loop pyval) l a :
  d !! l = Some (PyObj a) -> dict_get d l = PyObj a.
Proof. unfold dict_get. intros ->. reflexivity. Qed.

Lemma dict_get_is_object (d : gmap loop pyval) l :
  is_not_None (dict_get d l) = true -> d !! l = Some (dict_get d l).
Proof.
  unfold dict_get. destruct (d !! l) as [[|a]|]; simpl; intros H; congruence.
Qed.

(** A hit: the entry is returned and nothing changes. *)
Lemma get_hit (c : client) l a :
  by_loop c !! l = Some (PyObj a) -> get (Some l) c = (Return (PyObj a), c).
Proof.
  intros H. unfold _get. simpl. rewrite (dict_get_object _ _ _ H). reflexivity.
Qed.

(** An object that the getter returns is in the dictionary afterwards. *)
Lemma get_object_cached (c c1 : client) l a :
  get (Some l) c = (Return (PyObj a), c1) -> by_loop c1 !! l = Some (PyObj a).
Proof.
  unfold _get. simpl.
  destruct (is_not_None (dict_get (by_loop c) l)) eqn:E.
  - intros [= Hv <-]. rewrite (dict_get_is_object _ _ E). congruence.
  - destruct (factory (world c)) as [[v|e] w']; intros [= -> <-]; simpl.
    apply lookup_insert_eq.
Qed.

(** An entry stays as long as its loop is not reclaimed. *)
Lemma step_keeps_entry (c : client) l a e :
  by_loop c !! l = Some (PyObj a) -> e <> Reclaim l ->
  by_loop (step factory c e) !! l = Some (PyObj a).
Proof.
  intros H Hne. destruct e as [[l'|]|l']; simpl.
  - destruct (decide (l' = l)) as [->|Hl].
    + rewrite (get_hit _ _ _ H). exact H.
    + unfold _get. simpl.
      destruct (is_not_None (dict_get (by_loop c) l')); [exact H|].
      destruct (factory (world c)) as [[v|x] w']; simpl; [|exact H].
      rewrite lookup_insert_ne by congruence. exact H.
  - exact H.
  - rewrite lookup_delete_ne by congruence. exact H.
Qed.

Lemma run_keeps_entry es : forall (c : client) l a,
  by_loop c !! l = Some (PyObj a) -> alive_throughout l es ->
  by_loop (run factory es c) !! l = Some (PyObj a).
Proof.
  induction es as [|e es IH]; intros c l a H Hal; simpl; [exact H|].
  inversion Hal; subst. apply IH; [|assumption].
  apply step_keeps_entry; assumption.
Qed.

(** While the entry of a loop is there, the factory is not invoked for it. *)
Lemma step_keeps_invocations (c : client) l a e :
  by_loop c !! l = Some (PyObj a) ->
  invocations_for l (step factory c e) = invocations_for l c.
Proof.
  intros H. unfold invocations_for. destruct e as [[l'|]|l']; simpl; try reflexivity.
  destruct (decide (l' = l)) as [->|Hl].
  - rewrite (get_hit _ _ _ H). reflexivity.
  - unfold _get. simpl.
    destruct (is_not_None (dict_get (by_loop c) l')); [reflexivity|].
    destruct (factory (world c)) as [[v|x] w']; simpl;
      rewrite filter_cons_False by assumption; reflexivity.
Qed.

Lemma run_keeps_invocations es : forall (c : client) l a,
  by_loop c !! l = Some (PyObj a) -> alive_throughout l es ->
  invocations_for l (run factory es c) = invocations_for l c.
Proof.
  induction es as [|e es IH]; intros c l a H Hal; simpl; [reflexivity|].
  inversion Hal; subst.
  rewrite (IH _ l a); [eapply step_keeps_invocations; eassumption| |assumption].
  apply step_keeps_entry; assumption.
Qed.

(** Invocations are only ever added, at the end of the history. *)
Lemma step_made (c : client) e :
  exists k, rev (made (step factory c e)) = (rev (made c) ++ k)%list.
Proof.
  destruct e as [[l|]|l]; simpl; try (exists []; rewrite app_nil_r; reflexivity).
  unfold _get. simpl.
  destruct (is_not_None (dict_get (by_loop c) l));
    [exists []; rewrite app_nil_r; reflexivity|].
  destruct (factory (world c)) as [[v|x] w']; simpl; exists [l]; reflexivity.
Qed.

Lemma run_made es : forall c : client,
  exists k, rev (made (run factory es c)) = (rev (made c) ++ k)%list.
Proof.
  induction es as [|e es IH]; intros c; simpl.
  - exists []. rewrite app_nil_r. reflexivity.
  - destruct (IH (step factory c e)) as [k2 ->].
    destruct (step_made c e) as [k1 ->].
    exists (k1 ++ k2)%list. rewrite app_assoc. reflexivity.
Qed.

Lemma accounted_init w0 : accounted factory w0 (_loop_local_client w0).
Proof.
  split; [reflexivity|]. intros l a H. simpl in H.
  rewrite lookup_empty in H. discriminate.
Qed.

Lemma accounted_step w0 (c : client) e :
  accounted factory w0 c -> accounted factory w0 (step factory c e).
Proof.
  intros [Hw Hent]. destruct e as [[l|]|l]; simpl.
  - unfold _get. simpl.
    destruct (is_not_None (dict_get (by_loop c) l)); [split; assumption|].
    assert (Hres : result_at factory (length (made c)) w0 = fst (factory (world c)))
      by (unfold result_at; rewrite Hw; reflexivity).
    assert (Hold : forall l1 a1 (l' : loop), by_loop c !! l1 = Some (PyObj a1) ->
              exists i, (rev (made c) ++ [l'])%list !! i = Some l1 /\
                        result_at factory i w0 = Return (PyObj a1)).
    { intros l1 a1 l' H1. destruct (Hent _ _ H1) as (i & Hi & Hr).
      exists i. split; [|exact Hr]. apply lookup_app_l_Some. exact Hi. }
    destruct (factory (world c)) as [[v|x] w'] eqn:Ef; simpl; split; simpl.
    + rewrite Hw in Ef. rewrite Ef. reflexivity.
    + intros l1 a1 H1. destruct (decide (l = l1)) as [->|Hl].
      * rewrite lookup_insert_eq in H1. injection H1 as ->.
        exists (length (made c)). split; [|exact Hres].
        rewrite lookup_app_r by (rewrite length_rev; lia).
        rewrite length_rev, Nat.sub_diag. reflexivity.
      * rewrite lookup_insert_ne in H1 by assumption. apply Hold. exact H1.
    + rewrite Hw in Ef. rewrite Ef. reflexivity.
    + intros l1 a1 H1. apply Hold. exact H1.
  - split; assumption.
  - split; [assumption|]. simpl. intros l1 a1 H1.
    apply lookup_delete_Some in H1 as [_ H1]. apply Hent. exact H1.
Qed.

Lemma accounted_run w0 es : forall c : client,
  accounted factory w0 c -> accounted factory w0 (run factory es c).
Proof.
  induction es as [|e es IH]; intros c H; simpl; [exact H|].
  apply IH, accounted_step, H.
Qed.

(** An object the getter returns for loop [l] comes from an invocation made
    for [l]. *)
Lemma get_object_accounted w0 (c c1 : client) l a :
  accounted factory w0 c -> get (Some l) c = (Return (PyObj a), c1) ->
  exists i, rev (made c1) !! i = Some l /\ result_at factory i w0 = Return (PyObj a).
Proof.
  intros Hacc Hget.
  assert (Hacc1 : accounted factory w0 c1).
  { pose proof (accounted_step w0 c (Call (Some l)) Hacc) as H.
    simpl in H. rewrite Hget in H. exact H. }
  destruct Hacc1 as [_ Hent]. apply Hent. eapply get_object_cached, Hget.
Qed.

(** C1 (amended): once a call of the getter from loop [C] has returned an
    object (not [None]), every later call from [C] returns that same
    object and leaves the client as it is, whatever calls from other loops
    and reclamations of other loops happen in between. *)
Theorem same_loop_same_instance (C : loop) (c c1 : client) a es :
  get (Some C) c = (Return (PyObj a), c1) ->
  alive_throughout C es ->
  get (Some C) (run factory es c1) = (Return (PyObj a), run factory es c1).
Proof.
  intros Hget Hal. apply get_hit, run_keeps_entry; [|exact Hal].
  eapply get_object_cached, Hget.
Qed.

(** C2 (amended): the getter serves two distinct loops from two separate
    invocations of the factory, whatever the factory: the object returned
    to loop [C] is the result of an invocation made for [C], the object
    returned to loop [C'] is the result of another invocation, made for
    [C'].  So the two objects are different whenever the factory never
    returns the same object twice.  The client is any client reachable from
    a new one, and anything may happen between the two calls. *)
Theorem distinct_loops_distinct_instances w0 es0 (C C' : loop) a b
    (c1 c2 : client) es :
  C <> C' ->
  get (Some C) (run factory es0 (_loop_local_client w0)) = (Return (PyObj a), c1) ->
  get (Some C') (run factory es c1) = (Return (PyObj b), c2) ->
  exists i j,
    i <> j /\
    rev (made c2) !! i = Some C /\
    result_at factory i w0 = Return (PyObj a) /\
    rev (made c2) !! j = Some C' /\
    result_at factory j w0 = Return (PyObj b) /\
    (never_repeats factory w0 -> a <> b).
Proof.
  intros Hne H1 H2.
  pose proof (accounted_run w0 es0 _ (accounted_init w0)) as Hacc0.
  destruct (get_object_accounted w0 _ _ _ _ Hacc0 H1) as (i & Hi & Hri).
  assert (Hacc1 : accounted factory w0 c1).
  { pose proof (accounted_step w0 _ (Call (Some C)) Hacc0) as H.
    simpl in H. rewrite H1 in H. exact H. }
  pose proof (accounted_run w0 es _ Hacc1) as Hacc2.
  destruct (get_object_accounted w0 _ _ _ _ Hacc2 H2) as (j & Hj & Hrj).
  destruct (run_made es c1) as [k1 Hk1].
  destruct (step_made (run factory es c1) (Call (Some C'))) as [k2 Hk2].
  simpl in Hk2. rewrite H2 in Hk2. simpl in Hk2. rewrite Hk1 in Hk2.
  assert (Hi2 : rev (made c2) !! i = Some C).
  { rewrite Hk2. apply lookup_app_l_Some, lookup_app_l_Some, Hi. }
  assert (Hij : i <> j) by (intros ->; rewrite Hi2 in Hj; congruence).
  exists i, j. repeat (split; [assumption|]).
  intros Hfresh ->. exact (Hfresh i j b Hij Hri Hrj).
Qed.

(** C3 (amended): after a call of the getter from loop [C] has returned an
    object (not [None]), no later call invokes the factory for [C] again,
    as long as [C] is not reclaimed. *)
Theorem one_invocation_per_loop (C : loop) (c c1 : client) a es :
  get (Some C) c = (Return (PyObj a), c1) ->
  alive_throughout C es ->
  invocations_for C (run factory es c1) = invocations_for C c1 /\
  (forall c2, get (Some C) (run factory es c1) = (Return (PyObj a), c2) ->
     made c2 = made (run factory es c1) /\ world c2 = world (run factory es c1)).
Proof.
  intros Hget Hal.
  pose proof (get_object_cached _ _ _ _ Hget) as Hent.
  split.
  - eapply run_keeps_invocations; eassumption.
  - intros c2 H2.
    rewrite (get_hit _ _ _ (run_keeps_entry es _ _ _ Hent Hal)) in H2.
    injection H2 as <-. split; reflexivity.
Qed.

(** C4: when the factory raises in a call of the getter from loop [C], the
    getter raises the same exception, the dictionary is unchanged, and the
    next call from [C] invokes the factory again: its outcome is the
    outcome of that second invocation. *)
Theorem factory_failure_not_cached (C : loop) (c : client) e w' :
  is_not_None (dict_get (by_loop c) C) = false ->
  factory (world c) = (Raise e, w') ->
  fst (get (Some C) c) = Raise e /\
  by_loop (snd (get (Some C) c)) = by_loop c /\
  fst (get (Some C) (snd (get (Some C) c))) = fst (factory w') /\
  made (snd (get (Some C) (snd (get (Some C) c)))) = C :: C :: made c.
Proof.
  intros Hmiss Hf. unfold _get. simpl. rewrite Hmiss, Hf. simpl.
  rewrite Hmiss. repeat split.
  - destruct (factory w') as [[v|x] w'']; reflexivity.
  - destruct (factory w') as [[v|x] w'']; reflexivity.
Qed.

(** C10: called from a thread with no running event loop, the getter raises
    the [RuntimeError] of [asyncio.get_running_loop()]; the factory is not
    invoked and the client is unchanged. *)
Theorem no_running_loop_raises (c : client) :
  get None c = (Raise RuntimeError, c).
Proof. reflexivity. Qed.

End Getter.

(** [lambda: object()] never returns the same object twice. *)
Lemma fresh_object_world n : forall w,
  Pos.to_nat (world_after fresh_object n w) = Pos.to_nat w + n.
Proof.
  induction n as [|n IH]; intros w; simpl; [lia|].
  rewrite Pos2Nat.inj_succ, IH. lia.
Qed.

Lemma fresh_object_never_repeats w : never_repeats fresh_object w.
Proof.
  intros i j a Hij Hi Hj. unfold result_at in *. simpl in *.
  injection Hi as Hi. injection Hj as Hj.
  pose proof (fresh_object_world i w). pose proof (fresh_object_world j w).
  rewrite Hi in *. rewrite Hj in *. lia.
Qed.

(** The scenario of [test_openai_runtime_clients_are_loop_local], with
    [lambda: object()]: two calls from the test's loop, then one from the loop
    of another thread. *)
Example runtime_clients_are_loop_local :
  let first := _get fresh_object (Some 1%positive) (_loop_local_client 1%positive) in
  let second := _get fresh_object (Some 1%positive) (snd first) in
  let other := _get fresh_object (Some 2%positive) (snd second) in
  fst first = fst second /\ fst other <> fst first.
Proof. split; [reflexivity|discriminate]. Qed.

(** C1 at a concrete input: loop 1 is served, loop 2 is served and
    reclaimed, a thread without a loop tries, and loop 1 asks again. *)
Lemma same_loop_same_instance_witness :
  _get fresh_object (Some 1%positive)
    (run fresh_object [Call (Some 2%positive); Reclaim 2%positive; Call None]
       (snd (_get fresh_object (Some 1%positive) (_loop_local_client 1%positive))))
  = (Return (PyObj 1%positive),
     run fresh_object [Call (Some 2%positive); Reclaim 2%positive; Call None]
       (snd (_get fresh_object (Some 1%positive) (_loop_local_client 1%positive)))).
Proof.
  apply (same_loop_same_instance fresh_object 1%positive (_loop_local_client 1%positive)).
  - reflexivity.
  - repeat constructor; discriminate.
Defined.

(** C1 as stated fails for a factory whose first result is [None]: the
    first call from loop 1 returns [None], the second one a new object. *)
Lemma none_then_object_two_results :
  fst (_get none_then_object (Some 1%positive) (_loop_local_client 1%positive))
    = Return PyNone /\
  fst (_get none_then_object (Some 1%positive)
         (snd (_get none_then_object (Some 1%positive) (_loop_local_client 1%positive))))
    = Return (PyObj 2%positive) /\
  PyNone <> PyObj 2%positive.
Proof. repeat split; discriminate. Qed.

(** C2 at a concrete input: loops 1 and 2 with [lambda: object()]. *)
Lemma distinct_loops_distinct_instances_witness :
  fst (_get fresh_object (Some 1%positive) (_loop_local_client 1%positive))
    = Return (PyObj 1%positive) /\
  fst (_get fresh_object (Some 2%positive)
         (snd (_get fresh_object (Some 1%positive) (_loop_local_client 1%positive))))
    = Return (PyObj 2%positive) /\
  (1 <> 2)%positive.
Proof.
  split; [reflexivity|]. split; [reflexivity|].
  destruct (distinct_loops_distinct_instances fresh_object 1%positive []
              1%positive 2%positive 1%positive 2%positive
              (snd (_get fresh_object (Some 1%positive) (_loop_local_client 1%positive)))
              (snd (_get fresh_object (Some 2%positive)
                 (snd (_get fresh_object (Some 1%positive)
                         (_loop_local_client 1%positive)))))
              [])
    as (i & j & _ & _ & _ & _ & _ & Hdiff).
  - discriminate.
  - reflexivity.
  - reflexivity.
  - apply Hdiff, fresh_object_never_repeats.
Defined.

(** C2 as stated fails for a factory that returns a shared object: loops 1
    and 2 are distinct and get the identical instance. *)
Lemma shared_object_same_instance :
  (1 <> 2)%positive /\
  fst (_get shared_object (Some 1%positive) (_loop_local_client tt))
    = Return (PyObj 7%positive) /\
  fst (_get shared_object (Some 2%positive)
         (snd (_get shared_object (Some 1%positive) (_loop_local_client tt))))
    = Return (PyObj 7%positive).
Proof. repeat split; discriminate. Qed.

(** C3 at a concrete input. *)
Lemma one_invocation_per_loop_witness :
  invocations_for 1%positive
    (run fresh_object [Call (Some 1%positive); Call (Some 2%positive); Call (Some 1%positive)]
       (snd (_get fresh_object (Some 1%positive) (_loop_local_client 1%positive))))
  = 1.
Proof.
  refine (eq_trans
    (proj1 (one_invocation_per_loop fresh_object 1%positive (_loop_local_client 1%positive)
       (snd (_get fresh_object (Some 1%positive) (_loop_local_client 1%positive)))
       1%positive
       [Call (Some 1%positive); Call (Some 2%positive); Call (Some 1%positive)] _ _)) _).
  - reflexivity.
  - repeat constructor; discriminate.
  - reflexivity.
Defined.

(** C3 as stated fails for [lambda: None]: the first call from loop 1
    completes normally, and the second call from loop 1 invokes the factory
    again. *)
Lemma always_none_invoked_again :
  fst (_get always_none (Some 1%positive) (_loop_local_client tt)) = Return PyNone /\
  invocations_for 1%positive
    (snd (_get always_none (Some 1%positive) (_loop_local_client tt))) = 1 /\
  invocations_for 1%positive
    (snd (_get always_none (Some 1%positive)
       (snd (_get always_none (Some 1%positive) (_loop_local_client tt))))) = 2.
Proof. repeat split. Qed.

(** C4 at a concrete input: the factory fails on its first invocation. *)
Lemma factory_failure_not_cached_witness :
  fst (_get fails_once (Some 1%positive) (_loop_local_client 1%positive)) = Raise OSError /\
  by_loop (snd (_get fails_once (Some 1%positive) (_loop_local_client 1%positive))) = ∅ /\
  fst (_get fails_once (Some 1%positive)
         (snd (_get fails_once (Some 1%positive) (_loop_local_client 1%positive))))
    = Return (PyObj 2%positive) /\
  made (snd (_get fails_once (Some 1%positive)
         (snd (_get fails_once (Some 1%positive) (_loop_local_client 1%positive)))))
    = [1%positive; 1%positive].
Proof.
  apply (factory_failure_not_cached fails_once 1%positive (_loop_local_client 1%positive)
           OSError 2%positive); reflexivity.
Defined.

End LoopLocalFacts.

(** ** The reflection server and [run_main] *)
Module BaseAsyncFacts.
Import BaseAsync.
Local Open Scope M_scope.

(** *** The checkers decide the orderings *)

Section Checkers.
Variables (P Q : event -> Prop) (Pb Qb : event -> bool).
Hypothesis Pb_sound : forall e, Pb e = true -> P e.
Hypothesis Pb_complete : forall e, P e -> Pb e = true.
Hypothesis Qb_complete : forall e, Q e -> Qb e = true.




End Checkers.


Lemma is_ready_setb_iff e : is_ready_setb e = true <-> is_ready_set e.
Proof.
  split.
  - destruct e; try discriminate. reflexivity.
  - intros ->. reflexivity.
Qed.

Lemma is_ready_confirmedb_iff e : is_ready_confirmedb e = true <-> is_ready_confirmed e.
Proof.
  split.
  - destruct e; try discriminate. reflexivity.
  - intros ->. reflexivity.
Qed.

Lemma is_manifest_writeb_iff e : is_manifest_writeb e = true <-> is_manifest_write e.
Proof.
  split.
  - destruct e; try discriminate. intros _. eexists. reflexivity.
  - intros (sp & ->). reflexivity.
Qed.

(** *** Computations that only extend the trace *)

Lemma same_instance_refl p : same_instance p p.
Proof. repeat split. Qed.

Lemma same_instance_trans p q r :
  same_instance p q -> same_instance q r -> same_instance p r.
Proof.
  unfold same_instance. intros (?&?&?&?&?) (?&?&?&?&?).
  repeat split; congruence.
Qed.

Lemma only_traces_ret {A} (a : A) : only_traces (ret a).
Proof. intros p. apply same_instance_refl. Qed.

Lemma only_traces_raise {A} e : only_traces (@raise A e).
Proof. intros p. apply same_instance_refl. Qed.

Lemma only_traces_never {A} : only_traces (@never A).
Proof. intros p. apply same_instance_refl. Qed.

Lemma only_traces_ends_as {A} (c : completion A) : only_traces (ends_as c).
Proof. intros p. apply same_instance_refl. Qed.

Lemma only_traces_emit e : only_traces (emit e).
Proof. intros p. repeat split. Qed.

Lemma only_traces_read {A} (f : proc -> A) : only_traces (read f).
Proof. intros p. apply same_instance_refl. Qed.

Lemma only_traces_bind {A B} (m : M A) (k : A -> M B) :
  only_traces m -> (forall a, only_traces (k a)) -> only_traces (bind m k).
Proof.
  intros Hm Hk p. unfold bind. specialize (Hm p).
  destruct (m p) as [[[a|e]|] p']; simpl in *; try exact Hm.
  eapply same_instance_trans; [exact Hm|apply Hk].
Qed.

Lemma only_traces_try_except_Exception {A} (body handler : M A) :
  only_traces body -> only_traces handler ->
  only_traces (try_except_Exception body handler).
Proof.
  intros Hb Hh p. unfold try_except_Exception. specialize (Hb p).
  destruct (body p) as [[[a|e]|] p']; simpl in *; try exact Hb.
  destruct (is_Exception e); simpl; [|exact Hb].
  eapply same_instance_trans; [exact Hb|apply Hh].
Qed.

Lemma only_traces_try_except_cancelled (body : M unit) :
  only_traces body -> only_traces (try_except_cancelled body).
Proof.
  intros Hb p. unfold try_except_cancelled. specialize (Hb p).
  destruct (body p) as [[[a|e]|] p']; simpl in *; try exact Hb.
  destruct (exc_cls e); exact Hb.
Qed.

Lemma only_traces_for_each {A} (xs : list A) (body : A -> M unit) :
  (forall x, only_traces (body x)) -> only_traces (for_each xs body).
Proof.
  intros Hb. induction xs as [|x xs IH]; simpl.
  - apply only_traces_ret.
  - apply only_traces_bind; [apply Hb|intros _; exact IH].
Qed.

Lemma only_traces_register_plugin name : only_traces (register_plugin name).
Proof.
  intros p. unfold register_plugin. destruct (registered name (registry p)); repeat split.
Qed.

Lemma only_traces_new_registry : only_traces new_registry.
Proof. intros p. repeat split. Qed.

Create HintDb frame.
#[local] Hint Resolve only_traces_ret only_traces_raise only_traces_never
  only_traces_ends_as only_traces_emit only_traces_read only_traces_bind
  only_traces_try_except_Exception only_traces_try_except_cancelled
  only_traces_for_each only_traces_register_plugin only_traces_new_registry : frame.

Lemma only_traces_initialize_registry fmts model plugins :
  only_traces (_initialize_registry fmts model plugins).
Proof.
  unfold _initialize_registry, log.
  apply only_traces_bind; [auto with frame|intros _].
  apply only_traces_bind; [auto with frame|intros _].
  destruct plugins as [[|x xs]|]; auto with frame.
  apply only_traces_for_each. intros [name|]; auto with frame.
Qed.

Lemma only_traces_run_main coro sig : only_traces (run_main coro sig).
Proof.
  unfold run_main, is_dev_environment.
  apply only_traces_bind; [auto with frame|intros dev].
  destruct dev; simpl; unfold anyio_run, dev_runner, run_loop, await, log,
    sleep_until_signal.
  - apply only_traces_bind; [auto with frame|intros _].
    apply only_traces_bind.
    + apply only_traces_try_except_Exception; auto 6 with frame.
    + intros r. apply only_traces_bind; [auto with frame|intros _].
      apply only_traces_bind; [|auto with frame].
      apply only_traces_try_except_cancelled.
      destruct sig as [[|]|]; auto with frame.
  - auto with frame.
Qed.

(** *** Deciding membership on a given trace *)


Lemma Forall_no_manifest_check (l : list event) :
  existsb is_manifest_writeb l = false -> Forall (fun e => ~ is_manifest_write e) l.
Proof.
  intros H. apply Forall_forall. intros e Hin He.
  assert (existsb is_manifest_writeb l = true); [|congruence].
  apply existsb_exists. exists e. split.
  - apply list_elem_of_In, Hin.
  - apply is_manifest_writeb_iff, He.
Qed.



(** *** The claims *)









(** What [__init__] leaves behind when the process is not in development
    mode. *)
Lemma init_production fmts plugins model spec p :
  GENKIT_ENV_dev p = false ->
  threads (snd (__init__ fmts plugins model spec p)) = threads p /\
  _reflection_ready (snd (__init__ fmts plugins model spec p)) = false.
Proof.
  intros Hdev.
  change (__init__ fmts plugins model spec p)
    with (bind (_initialize_registry fmts model plugins)
            (fun _ => emit GenerateActionDefined ;;
                      dev ← is_dev_environment;
                      if dev then _start_reflection_background else ret tt)
            (snd (Event_new (snd (set_spec spec (snd (new_registry p))))))).
  set (q := snd (Event_new (snd (set_spec spec (snd (new_registry p)))))).
  pose proof (only_traces_initialize_registry fmts model plugins q) as Hreg.
  unfold bind, emit, is_dev_environment, read.
  destruct (_initialize_registry fmts model plugins q) as [[[[]|e]|] p3];
    destruct Hreg as (He & Hrdy & _ & _ & Hthr); simpl in *;
    try (split; assumption).
  rewrite He, Hdev. simpl. split; assumption.
Qed.

Lemma perform_keeps_unready p a :
  threads p = [] -> _reflection_ready p = false ->
  threads (perform p a) = [] /\ _reflection_ready (perform p a) = false.
Proof.
  intros Hthr Hrdy. destruct a as [coro sig|dev|os_port uv]; simpl.
  - destruct (only_traces_run_main coro sig p) as (_ & H1 & _ & _ & H2).
    rewrite H1, H2. split; assumption.
  - split; assumption.
  - rewrite Hthr. split; assumption.
Qed.

Lemma lifetime_keeps_unready acts : forall p,
  threads p = [] -> _reflection_ready p = false ->
  threads (lifetime acts p) = [] /\ _reflection_ready (lifetime acts p) = false.
Proof.
  induction acts as [|a acts IH]; intros p Hthr Hrdy; simpl; [split; assumption|].
  destruct (perform_keeps_unready p a Hthr Hrdy). apply IH; assumption.
Qed.

(** C6 (amended): in development mode [run_main] runs the user coroutine on
    the loop [l] that the runner creates; when it returns, or fails with an
    exception that is an instance of [Exception], the failure is logged and
    not propagated, and [run_main] then blocks on that same loop [l] until
    SIGINT or SIGTERM reaches it, after which it returns the coroutine's
    result, or [None] if it failed.  Without a signal on [l] it never
    returns.  Nothing is run or waited for on any other loop: what the
    coroutine would do and which signals arrive elsewhere makes no
    difference. *)
Theorem run_main_development (l : loop) (coro : loop -> completion pyval)
    (sig : loop -> option signal) (o : outcome pyval) p :
  GENKIT_ENV_dev p = true ->
  coro l = Done o ->
  (forall e, o = Raise e -> is_Exception e = true) ->
  fst (run_main_on l coro sig p)
    = match sig l with
      | Some _ => Done (Return (match o with Return v => v | Raise _ => PyNone end))
      | None => Never
      end /\
  trace (snd (run_main_on l coro sig p))
    = (trace p ++
       [Log INFO "Running in development mode.";
        match o with
        | Return _ => Log DEBUG "User coroutine completed successfully."
        | Raise _ => Log ERROR "User coroutine failed"
        end;
        Log INFO "Script done â€” Dev UI running. Press Ctrl+C to stop."] ++
       match sig l with
       | Some _ => [Log INFO "Dev UI server stopped."]
       | None => []
       end)%list /\
  (forall coro' sig', coro' l = coro l -> sig' l = sig l ->
     run_main_on l coro' sig' p = run_main_on l coro sig p).
Proof.
  intros Hdev Ho Hexc.
  assert (Hsame : forall coro' sig', coro' l = coro l -> sig' l = sig l ->
            run_main_on l coro' sig' p = run_main_on l coro sig p).
  { intros coro' sig' Hc Hs. unfold run_main_on, anyio_run, dev_runner.
    rewrite Hc, Hs. reflexivity. }
  split; [|split; [|exact Hsame]].
  - unfold run_main_on, anyio_run, dev_runner. rewrite Ho.
    destruct p as [env rdy sp se thr reg tr]. simpl in Hdev. subst env.
    destruct o as [v|[cls nm]].
    + destruct (sig l) as [[|]|]; reflexivity.
    + specialize (Hexc _ eq_refl). destruct cls; try discriminate Hexc.
      destruct (sig l) as [[|]|]; reflexivity.
  - unfold run_main_on, anyio_run, dev_runner. rewrite Ho.
    destruct p as [env rdy sp se thr reg tr]. simpl in Hdev. subst env.
    destruct o as [v|[cls nm]].
    + destruct (sig l) as [[|]|]; cbn; rewrite <- ?app_assoc; reflexivity.
    + specialize (Hexc _ eq_refl). destruct cls; try discriminate Hexc.
      destruct (sig l) as [[|]|]; cbn; rewrite <- ?app_assoc; reflexivity.
Qed.

(** C8: outside development mode [run_main] logs one line and hands the
    coroutine to [run_loop]: its result is returned, its failure is raised
    unchanged, and nothing else of the instance changes; no thread is
    started. *)
Theorem run_main_production (coro : completion pyval) (sig : option signal) p :
  GENKIT_ENV_dev p = false ->
  run_main coro sig p = (coro, snd (log INFO "Running in production mode." p)) /\
  threads (snd (run_main coro sig p)) = threads p.
Proof.
  intros Hdev. unfold run_main, run_main_on, is_dev_environment, read, bind.
  rewrite Hdev. simpl.
  split; reflexivity.
Qed.

(** C9: an instance constructed outside development mode has no background
    thread and an unset readiness event, and keeps both for as long as it
    lives: through calls of [run_main], changes of the environment, and
    whatever its threads, of which there are none, could do. *)
Theorem production_instance_never_ready fmts plugins model spec acts p :
  GENKIT_ENV_dev p = false ->
  threads p = [] ->
  threads (lifetime acts (snd (__init__ fmts plugins model spec p))) = [] /\
  _reflection_ready (lifetime acts (snd (__init__ fmts plugins model spec p))) = false.
Proof.
  intros Hdev Hthr.
  destruct (init_production fmts plugins model spec p Hdev) as [H1 H2].
  apply lifetime_keeps_unready; congruence.
Qed.

(** Runs of the background thread on concrete inputs. *)

Example thread_serves :
  _thread_main (Some 3100%Z) uv_serves (boot true)
  = (Never,
     {| GENKIT_ENV_dev := true; _reflection_ready := true;
        _reflection_server_spec := Some spec_3100; should_exit := false;
        threads := []; registry := [];
        trace := [SocketBound "127.0.0.1" 3100; RuntimeManagerEntered spec_3100;
                  ServerTaskCreated; ReadySet; ReadyConfirmed;
                  RuntimeFileWritten spec_3100;
                  LogSpec INFO "Genkit Dev UI reflection server running" spec_3100] |}).
Proof. reflexivity. Qed.

Example thread_server_gives_up :
  _thread_main None uv_gives_up_quietly (snd (set_spec (Some spec_3100) (boot true)))
  = (Done (Return tt),
     {| GENKIT_ENV_dev := true; _reflection_ready := true;
        _reflection_server_spec := Some spec_3100; should_exit := true;
        threads := []; registry := [];
        trace := [RuntimeManagerEntered spec_3100; ServerTaskCreated; ReadySet;
                  ReadyConfirmed;
                  LogSpec WARNING "Reflection server failed to start." spec_3100;
                  RuntimeManagerExited] |}).
Proof. reflexivity. Qed.

Example thread_server_exits :
  _thread_main None uv_exits (snd (set_spec (Some spec_3100) (boot true)))
  = (Done (Raise SystemExit),
     {| GENKIT_ENV_dev := true; _reflection_ready := true;
        _reflection_server_spec := Some spec_3100; should_exit := false;
        threads := []; registry := [];
        trace := [RuntimeManagerEntered spec_3100; ServerTaskCreated; ReadySet;
                  RuntimeManagerExited] |}).
Proof. reflexivity. Qed.

(** The scenario of [test_no_server_in_prod_mode]. *)
Example no_server_in_prod_mode :
  fst (Event_is_set (snd (__init__ ["json"] None None None (boot false))))
  = Done (Return false).
Proof. reflexivity. Qed.

(** In development mode construction starts the thread. *)
Example construction_in_dev_mode :
  threads (snd (__init__ ["json"] (Some [IsPlugin "openai"]) None None (boot true)))
    = ["genkit-reflection-server"].
Proof. reflexivity. Qed.






(** C6 at a concrete input: on loop 5 the coroutine fails with a
    [ValueError] and SIGTERM arrives; on other loops the coroutine would
    not complete and no signal would arrive. *)
Lemma run_main_development_witness :
  fst (run_main_on 5%positive fails_on_loop_5 sigterm_on_loop_5 (boot true))
    = Done (Return PyNone).
Proof.
  refine (proj1 (run_main_development 5%positive fails_on_loop_5 sigterm_on_loop_5
                   (Raise ValueError) (boot true) eq_refl eq_refl _)).
  intros e [= <-]. reflexivity.
Defined.

(** C6 as stated fails for a failure that is not an [Exception]: a coroutine
    that leaves through [sys.exit] takes [run_main] with it; nothing is
    logged about it, nothing waits for a signal, and [None] is not
    returned. *)
Lemma run_main_development_SystemExit :
  fst (run_main (Done (Raise SystemExit)) (Some SIGINT) (boot true))
    = Done (Raise SystemExit) /\
  trace (snd (run_main (Done (Raise SystemExit)) (Some SIGINT) (boot true)))
    = [Log INFO "Running in development mode."] /\
  Done (Raise SystemExit) <> Done (Return PyNone).
Proof. repeat split; discriminate. Qed.

(** C8 at a concrete input: the coroutine fails. *)
Lemma run_main_production_witness :
  fst (run_main (Done (Raise ValueError)) None (boot false)) = Done (Raise ValueError) /\
  threads (snd (run_main (Done (Raise ValueError)) None (boot false))) = [].
Proof.
  destruct (run_main_production (Done (Raise ValueError)) None (boot false) eq_refl)
    as [H1 H2].
  split; [rewrite H1; reflexivity|exact H2].
Defined.

(** C9 at a concrete input: the instance is constructed, the environment is
    switched to development mode afterwards, and [run_main] is called. *)
Lemma production_instance_never_ready_witness :
  _reflection_ready
    (lifetime [EnvChanges true;
               ThreadRuns (Some 3100%Z) uv_serves;
               CallRunMain (Done (Return PyNone)) (Some SIGINT)]
       (snd (__init__ ["json"] None None None (boot false)))) = false.
Proof.
  exact (proj2 (production_instance_never_ready ["json"] None None None
                  [EnvChanges true;
                   ThreadRuns (Some 3100%Z) uv_serves;
                   CallRunMain (Done (Return PyNone)) (Some SIGINT)]
                  (boot false) eq_refl eq_refl)).
Defined.

End BaseAsyncFacts.


(** ** More on the loop-local cache *)
Module LoopLocalMore.
Import LoopLocal LoopLocalFacts.

Section Getter.
Context {W : Type} (factory : W -> outcome pyval * W).

Abbreviation get := (_get factory).
Abbreviation client := (client W).

Lemma step_elsewhere (c : client) l e :
  ~ concerns l e -> by_loop (step factory c e) !! l = by_loop c !! l.
Proof.
  intros Hc. destruct e as [[l'|]|l']; simpl.
  - assert (l' <> l) by (intros ->; apply Hc; left; reflexivity).
    unfold _get. simpl.
    destruct (is_not_None (dict_get (by_loop c) l')); [reflexivity|].
    destruct (factory (world c)) as [[v|x] w']; simpl; [|reflexivity].
    apply lookup_insert_ne. assumption.
  - reflexivity.
  - assert (l' <> l) by (intros ->; apply Hc; right; reflexivity).
    apply lookup_delete_ne. assumption.
Qed.

(** X1: whatever other loops do (calls of the getter from them or from
    threads without a loop, their reclamation), the dictionary entry of loop
    [l] stays exactly as it is, present or absent. *)
Theorem other_loops_leave_entry es : forall (c : client) l,
  Forall (fun e => ~ concerns l e) es ->
  by_loop (run factory es c) !! l = by_loop c !! l.
Proof.
  induction es as [|e es IH]; intros c l Hes; simpl; [reflexivity|].
  inversion Hes; subst. rewrite IH by assumption.
  apply step_elsewhere. assumption.
Qed.

(** X2: the dictionary of a client only ever has entries for loops from
    which the getter was called. *)
Theorem entries_only_for_callers w0 es l v :
  by_loop (run factory es (_loop_local_client w0)) !! l = Some v ->
  In (Call (Some l)) es.
Proof.
  assert (Hgen : forall es' (c : client),
            by_loop c !! l = None ->
            by_loop (run factory es' c) !! l = Some v -> In (Call (Some l)) es').
  { induction es' as [|e es' IH]; intros c Hc Hl; simpl in *; [congruence|].
    destruct e as [[l'|]|l'].
    - destruct (decide (l' = l)) as [->|Hne]; [left; reflexivity|].
      right. refine (IH _ _ Hl). rewrite step_elsewhere; [exact Hc|].
      intros [H|H]; congruence.
    - right. apply (IH _ Hc Hl).
    - right. refine (IH _ _ Hl). simpl.
      destruct (decide (l' = l)) as [->|Hne]; [apply lookup_delete_eq|].
      rewrite lookup_delete_ne by assumption. exact Hc. }
  apply Hgen. apply lookup_empty.
Qed.

(** X3: in every client reached from a new one, the factory's state is the
    one its recorded invocations left, and every object in the dictionary
    is what one of those invocations returned, an invocation made for the
    loop the object is stored under. *)
Theorem cached_objects_come_from_factory w0 es :
  accounted factory w0 (run factory es (_loop_local_client w0)).
Proof. apply accounted_run, accounted_init. Qed.

(** X4: with a factory that never returns the same object twice, no two
    loops ever hold the same object in the dictionary. *)
Theorem no_instance_shared w0 es (l l' : loop) a b :
  never_repeats factory w0 ->
  l <> l' ->
  by_loop (run factory es (_loop_local_client w0)) !! l = Some (PyObj a) ->
  by_loop (run factory es (_loop_local_client w0)) !! l' = Some (PyObj b) ->
  a <> b.
Proof.
  intros Hfresh Hne Ha Hb ->.
  destruct (accounted_run factory w0 es _ (accounted_init factory w0)) as [_ Hent].
  destruct (Hent _ _ Ha) as (i & Hi & Hri).
  destruct (Hent _ _ Hb) as (j & Hj & Hrj).
  destruct (decide (i = j)) as [->|Hij]; [congruence|].
  exact (Hfresh i j b Hij Hri Hrj).
Qed.

Lemma step_budget (l : loop) (c : client) e :
  always_returns_object factory ->
  invocations_for l (step factory c e) + slack l (step factory c e)
  <= invocations_for l c + slack l c + reclaims_of l [e].
Proof.
  intros Hobj. unfold slack, invocations_for.
  destruct e as [[l'|]|l']; simpl; try lia.
  - unfold _get. simpl.
    destruct (is_not_None (dict_get (by_loop c) l')) eqn:E'; simpl; [lia|].
    destruct (Hobj (world c)) as (a & w' & ->). simpl.
    destruct (decide (l' = l)) as [->|Hl].
    + rewrite E'. rewrite filter_cons_True by reflexivity.
      unfold dict_get. rewrite lookup_insert_eq. simpl. lia.
    + rewrite filter_cons_False by assumption.
      unfold dict_get. rewrite lookup_insert_ne by assumption. lia.
  - destruct (decide (l' = l)) as [->|Hl].
    + destruct (is_not_None (dict_get (delete l (by_loop c)) l)),
        (is_not_None (dict_get (by_loop c) l)); lia.
    + unfold dict_get. rewrite lookup_delete_ne by assumption. lia.
Qed.

Lemma reclaims_of_cons l e es :
  reclaims_of l (e :: es) = reclaims_of l [e] + reclaims_of l es.
Proof.
  destruct e as [ctx|l']; simpl; [reflexivity|]. destruct (decide (l' = l)); lia.
Qed.

Lemma run_budget (l : loop) es : forall c : client,
  always_returns_object factory ->
  invocations_for l (run factory es c) + slack l (run factory es c)
  <= invocations_for l c + slack l c + reclaims_of l es.
Proof.
  induction es as [|e es IH]; intros c Hobj; [simpl; lia|].
  rewrite reclaims_of_cons. simpl run.
  pose proof (IH (step factory c e) Hobj).
  pose proof (step_budget l c e Hobj). lia.
Qed.

(** X5: with a factory that always returns an object, the getter invokes it
    for a loop at most once, plus once more for each time the loop's entry
    was reclaimed; whatever the interleaving of calls from all loops. *)
Theorem invocations_bounded w0 es (l : loop) :
  always_returns_object factory ->
  invocations_for l (run factory es (_loop_local_client w0)) <= 1 + reclaims_of l es.
Proof.
  intros Hobj. pose proof (run_budget l es (_loop_local_client w0) Hobj) as H.
  assert (E0 : invocations_for l (_loop_local_client w0)
               + slack l (_loop_local_client w0) = 1).
  { unfold slack, invocations_for, dict_get. simpl. rewrite lookup_empty. reflexivity. }
  lia.
Qed.

(** X7: once the entry of a loop is reclaimed, the instance it held is no
    longer served: the next call under that key invokes the factory again
    and returns what this new invocation returns. *)
Theorem reclaimed_entry_not_served (c : client) (l : loop) :
  fst (get (Some l) (step factory c (Reclaim l))) = fst (factory (world c)) /\
  made (snd (get (Some l) (step factory c (Reclaim l)))) = l :: made c.
Proof.
  unfold _get. simpl. unfold dict_get. rewrite lookup_delete_eq. simpl.
  destruct (factory (world c)) as [[v|x] w']; split; reflexivity.
Qed.

End Getter.

Lemma fresh_object_always_returns_object : always_returns_object fresh_object.
Proof. intros w. eexists _, _. reflexivity. Qed.

(** X1 at a concrete input. *)
Lemma other_loops_leave_entry_witness :
  by_loop (run fresh_object [Call (Some 2%positive); Call None; Reclaim 2%positive]
             (snd (_get fresh_object (Some 1%positive) (_loop_local_client 1%positive))))
    !! 1%positive
  = Some (PyObj 1%positive).
Proof.
  rewrite (other_loops_leave_entry fresh_object
             [Call (Some 2%positive); Call None; Reclaim 2%positive]).
  - reflexivity.
  - repeat constructor; intros [H|H]; discriminate H.
Defined.

(** X2 at a concrete input. *)
Lemma entries_only_for_callers_witness :
  In (Call (Some 2%positive))
     [Call (Some 1%positive); Call (Some 2%positive); Reclaim 1%positive].
Proof.
  apply (entries_only_for_callers fresh_object 1%positive
           [Call (Some 1%positive); Call (Some 2%positive); Reclaim 1%positive]
           2%positive (PyObj 2%positive)).
  reflexivity.
Defined.

(** X4 at a concrete input. *)
Lemma no_instance_shared_witness : (1 <> 2)%positive.
Proof.
  apply (no_instance_shared fresh_object 1%positive
           [Call (Some 1%positive); Call (Some 2%positive); Call (Some 1%positive)]
           1%positive 2%positive 1%positive 2%positive).
  - apply fresh_object_never_repeats.
  - discriminate.
  - reflexivity.
  - reflexivity.
Defined.

(** X5 at a concrete input: loop 1 is reclaimed once and served twice. *)
Lemma invocations_bounded_witness :
  invocations_for 1%positive
    (run fresh_object
       [Call (Some 1%positive); Call (Some 1%positive); Reclaim 1%positive;
        Call (Some 1%positive); Call (Some 2%positive)]
       (_loop_local_client 1%positive))
  <= 1 + 1.
Proof.
  apply (invocations_bounded fresh_object 1%positive
           [Call (Some 1%positive); Call (Some 1%positive); Reclaim 1%positive;
            Call (Some 1%positive); Call (Some 2%positive)] 1%positive).
  apply fresh_object_always_returns_object.
Defined.

End LoopLocalMore.


(** ** More on construction, the background thread and [run_main] *)
Module BaseAsyncMore.
Import BaseAsync BaseAsyncFacts.
Local Open Scope M_scope.

(** *** Appending to the trace *)










(** *** The background thread *)

Lemma Forall_not_check (P : event -> Prop) (Pb : event -> bool) (l : list event) :
  (forall e, P e -> Pb e = true) ->
  existsb Pb l = false -> Forall (fun e => ~ P e) l.
Proof.
  intros Hc H. apply Forall_forall. intros e Hin He.
  assert (existsb Pb l = true); [|congruence].
  apply existsb_exists. exists e. split; [apply list_elem_of_In, Hin|apply Hc, He].
Qed.

Ltac new_events :=
  first [ eexists; split; [reflexivity|]
        | exists []; split; [symmetry; apply app_nil_r|] ].

(** What every run of the thread has in common, by cases on what the
    operating system and the server do. *)
Lemma thread_run_facts os_port uv p :
  _reflection_ready p = false ->
  exists new,
    trace (snd (_thread_main os_port uv p)) = (trace p ++ new)%list /\
    _reflection_server_spec (snd (_thread_main os_port uv p))
    = resolved_spec (_reflection_server_spec p) os_port /\
    (_reflection_ready (snd (_thread_main os_port uv p)) = true ->
     is_Some (_reflection_server_spec (snd (_thread_main os_port uv p)))) /\
    length (List.filter is_manifest_writeb new) <= 1 /\
    (forall s, In (RuntimeFileWritten s) new ->
       _reflection_server_spec (snd (_thread_main os_port uv p)) = Some s) /\
    (fst (_thread_main os_port uv p) <> Never ->
     (exists s, In (RuntimeManagerEntered s) new) ->
     last new = Some RuntimeManagerExited) /\
    GENKIT_ENV_dev (snd (_thread_main os_port uv p)) = GENKIT_ENV_dev p /\
    threads (snd (_thread_main os_port uv p)) = threads p.
Proof.
  intros Hr.
  destruct p as [env rdy sp se thr reg tr]; simpl in Hr; subst rdy.
  destruct uv as [b g st ml].
  destruct sp as [spec|]; [|destruct os_port as [n|]];
    destruct b, g, st as [[[]|[[] nm]]|], se, ml as [[[]|[[] nm']]|];
    cbn; rewrite <- ?app_assoc; cbn;
    new_events;
    (split; [reflexivity|]);
    (split; [first [discriminate 1 | intros _; eexists; reflexivity]|]);
    (split; [cbn; lia|]);
    (split; [intros s0 Hin; simpl in Hin; intuition congruence|]);
    (split; [intros Hn [s0 Hin];
             first [ reflexivity
                   | exfalso; apply Hn; reflexivity
                   | simpl in Hin; intuition discriminate ]|]);
    split; reflexivity.
Qed.

(** X11: when no spec was given and the operating system refuses the bind,
    the thread ends with [OSError] before it creates the server: nothing
    has happened, the readiness event is not set, and a thread that waits for
    it without a timeout is never released. *)
Theorem ephemeral_bind_failure uv p :
  _reflection_server_spec p = None ->
  _reflection_ready p = false ->
  _thread_main None uv p = (Done (Raise OSError), p) /\
  Event_wait (snd (_thread_main None uv p)) = (Never, p).
Proof.
  intros Hsp Hr. destruct p as [env rdy sp se thr reg tr]; simpl in *; subst.
  split; reflexivity.
Qed.

(** X12: the thread leaves a given server spec as it is and otherwise stores
    the loopback address with the port the operating system chose; whenever
    the readiness event is set after a run, a server spec is stored. *)
Theorem thread_resolves_spec os_port uv p :
  _reflection_ready p = false ->
  _reflection_server_spec (snd (_thread_main os_port uv p))
  = resolved_spec (_reflection_server_spec p) os_port /\
  (_reflection_ready (snd (_thread_main os_port uv p)) = true ->
   is_Some (_reflection_server_spec (snd (_thread_main os_port uv p)))).
Proof.
  intros Hr. destruct (thread_run_facts os_port uv p Hr) as (new & _ & H1 & H2 & _).
  split; assumption.
Qed.

(** X13: one run of the thread writes the runtime file at most once, and
    what it writes is the server spec that is stored in the instance after
    the run. *)
Theorem runtime_file_written_once os_port uv p :
  _reflection_ready p = false ->
  exists new,
    trace (snd (_thread_main os_port uv p)) = (trace p ++ new)%list /\
    length (List.filter is_manifest_writeb new) <= 1 /\
    (forall s, In (RuntimeFileWritten s) new ->
       _reflection_server_spec (snd (_thread_main os_port uv p)) = Some s).
Proof.
  intros Hr.
  destruct (thread_run_facts os_port uv p Hr) as (new & H0 & _ & _ & H1 & H2 & _).
  exists new. repeat split; assumption.
Qed.

(** X14: whenever a run of the thread that has entered the runtime manager
    comes to an end, by a return or by an exception, it has left the runtime
    manager as its last action. *)
Theorem runtime_manager_left os_port uv p :
  _reflection_ready p = false ->
  exists new,
    trace (snd (_thread_main os_port uv p)) = (trace p ++ new)%list /\
    (fst (_thread_main os_port uv p) <> Never ->
     (exists s, In (RuntimeManagerEntered s) new) ->
     last new = Some RuntimeManagerExited).
Proof.
  intros Hr.
  destruct (thread_run_facts os_port uv p Hr) as (new & H0 & _ & _ & _ & _ & H1 & _).
  exists new. split; assumption.
Qed.

(** X15: when the start-up of the server never completes, the readiness
    event is never set: the thread is stuck in its wait (unless its own bind
    failed), a waiter on the event is not released, and no runtime file is
    written. *)
Theorem startup_never_completes os_port uv p :
  uv_startup uv = Never ->
  _reflection_ready p = false ->
  fst (_thread_main os_port uv p)
  = (match resolved_spec (_reflection_server_spec p) os_port with
     | None => Done (Raise OSError)
     | Some _ => Never
     end) /\
  Event_wait (snd (_thread_main os_port uv p)) = (Never, snd (_thread_main os_port uv p)) /\
  exists new,
    trace (snd (_thread_main os_port uv p)) = (trace p ++ new)%list /\
    Forall (fun e => ~ is_ready_set e) new /\
    Forall (fun e => ~ is_manifest_write e) new.
Proof.
  intros Hst Hr.
  destruct p as [env rdy sp se thr reg tr]; simpl in Hr; subst rdy.
  destruct uv as [b g st ml]. simpl in Hst. subst st.
  destruct sp as [spec|]; [|destruct os_port as [n|]]; destruct b, g, se;
    cbn; rewrite <- ?app_assoc; cbn;
    (split; [reflexivity|]); (split; [reflexivity|]);
    new_events;
    (split; [apply (Forall_not_check _ is_ready_setb);
               [intros e; apply is_ready_setb_iff|reflexivity]
            |apply Forall_no_manifest_check; reflexivity]).
Qed.

(** X16: when the start-up of the server leaves through [SystemExit] or
    [KeyboardInterrupt], the readiness event is set all the same, and the
    thread ends with that exception: readiness is not confirmed, the warning
    is not logged and no runtime file is written.  (If the thread's own bind
    failed before, it ends with [OSError] and the event is not set.) *)
Theorem startup_exits os_port uv e p :
  uv_startup uv = Done (Raise e) ->
  exc_cls e = ClsExit ->
  _reflection_ready p = false ->
  fst (_thread_main os_port uv p)
  = (match resolved_spec (_reflection_server_spec p) os_port with
     | None => Done (Raise OSError)
     | Some _ => Done (Raise e)
     end) /\
  _reflection_ready (snd (_thread_main os_port uv p))
  = (match resolved_spec (_reflection_server_spec p) os_port with
     | None => false
     | Some _ => true
     end) /\
  exists new,
    trace (snd (_thread_main os_port uv p)) = (trace p ++ new)%list /\
    (is_Some (resolved_spec (_reflection_server_spec p) os_port) -> In ReadySet new) /\
    Forall (fun ev => ~ is_ready_confirmed ev) new /\
    Forall (fun ev => ~ is_start_failure_warning ev) new /\
    Forall (fun ev => ~ is_manifest_write ev) new.
Proof.
  intros Hst Hcls Hr.
  destruct p as [env rdy sp se thr reg tr]; simpl in Hr; subst rdy.
  destruct uv as [b g st ml]. simpl in Hst. subst st.
  destruct e as [cls nm]. simpl in Hcls. subst cls.
  destruct sp as [spec|]; [|destruct os_port as [n|]]; destruct b, g, se;
    cbn; rewrite <- ?app_assoc; cbn;
    (split; [reflexivity|]);
    (split; [reflexivity|]);
    new_events;
    (split; [first [ intros [x Hx]; discriminate Hx | intros _; simpl; tauto ]|]);
    (split; [apply (Forall_not_check _ is_ready_confirmedb);
               [intros ev; apply is_ready_confirmedb_iff|reflexivity]|]);
    (split; [|apply Forall_no_manifest_check; reflexivity]);
    repeat constructor; intros [s0 H0]; discriminate H0.
Qed.

(** X17: when the start-up of the server raises any other exception and
    [should_exit] is not set, the thread takes the server for started: it
    writes the runtime file, and only then ends with the exception, which
    it meets when it awaits the server task. *)
Theorem startup_raises_without_should_exit os_port uv e p :
  uv_startup uv = Done (Raise e) ->
  exc_cls e <> ClsExit ->
  uv_gives_up uv = false ->
  should_exit p = false ->
  _reflection_ready p = false ->
  forall s, resolved_spec (_reflection_server_spec p) os_port = Some s ->
  fst (_thread_main os_port uv p) = Done (Raise e) /\
  exists new,
    trace (snd (_thread_main os_port uv p)) = (trace p ++ new)%list /\
    In (RuntimeFileWritten s) new.
Proof.
  intros Hst Hcls Hg Hse Hr s Hs.
  destruct p as [env rdy sp se thr reg tr]; simpl in Hr, Hse, Hs; subst rdy se.
  destruct uv as [b g st ml]. simpl in Hst, Hg. subst st g.
  destruct e as [cls nm]. simpl in Hcls.
  destruct sp as [spec|]; [|destruct os_port as [n|]];
    simpl in Hs; try discriminate Hs; injection Hs as <-;
    destruct b, cls; try contradiction;
    cbn; rewrite <- ?app_assoc; cbn;
    (split; [reflexivity|]);
    new_events; simpl; tauto.
Qed.

(** *** [run_main] *)

(** X18: in development mode a coroutine that fails with an exception that
    is not an instance of [Exception] takes [run_main] with it at once:
    the failure is not logged, [run_main] does not wait for a signal, and
    the exception reaches the caller. *)
Theorem run_main_development_base_exception e sig p :
  GENKIT_ENV_dev p = true ->
  is_Exception e = false ->
  run_main (Done (Raise e)) sig p
  = (Done (Raise e), add_events [Log INFO "Running in development mode."] p).
Proof.
  intros Hdev He. destruct p as [env rdy sp se thr reg tr]. simpl in Hdev. subst env.
  destruct e as [[] nm]; try discriminate He; reflexivity.
Qed.

(** X19: in either mode and however the coroutine ends, [run_main] only
    writes log records: it does not touch the readiness event, the server
    spec or the started threads, so it never starts the reflection
    server. *)
Theorem run_main_only_logs coro sig p :
  exists new,
    snd (run_main coro sig p) = add_events new p /\ Forall is_log new.
Proof.
  destruct p as [[] rdy sp se thr reg tr];
    destruct coro as [[v|[[] nm]]|], sig as [[|]|];
    unfold add_events; cbn; rewrite <- ?app_assoc; cbn;
    (eexists; split; [reflexivity|]);
    repeat constructor; eexists _, _; reflexivity.
Qed.

(** X20: SIGINT and SIGTERM end the wait of development mode in the same
    way: [run_main] returns the same result and leaves the same trace. *)
Theorem signals_end_wait_alike coro p :
  run_main coro (Some SIGINT) p = run_main coro (Some SIGTERM) p.
Proof.
  destruct p as [[] rdy sp se thr reg tr]; destruct coro as [[v|[[] nm]]|]; reflexivity.
Qed.

(** *** The properties above at concrete inputs *)



(** X11 at a concrete input. *)
Lemma ephemeral_bind_failure_witness :
  _thread_main None uv_serves (boot true) = (Done (Raise OSError), boot true).
Proof.
  exact (proj1 (ephemeral_bind_failure uv_serves (boot true) eq_refl eq_refl)).
Defined.

(** X12 at a concrete input. *)
Lemma thread_resolves_spec_witness :
  _reflection_server_spec (snd (_thread_main (Some 3100%Z) uv_serves (boot true)))
  = Some spec_3100.
Proof.
  exact (proj1 (thread_resolves_spec (Some 3100%Z) uv_serves (boot true) eq_refl)).
Defined.

(** X13 at a concrete input. *)
Lemma runtime_file_written_once_witness :
  exists new,
    trace (snd (_thread_main (Some 3100%Z) uv_serves (boot true))) = new /\
    length (List.filter is_manifest_writeb new) <= 1.
Proof.
  destruct (runtime_file_written_once (Some 3100%Z) uv_serves (boot true) eq_refl)
    as (new & H0 & H1 & _).
  exists new. split; [exact H0|exact H1].
Defined.

(** X14 at a concrete input: the server gives up, the supervisor returns. *)
Lemma runtime_manager_left_witness :
  exists new,
    trace (snd (_thread_main (Some 3100%Z) uv_gives_up_quietly (boot true))) = new /\
    last new = Some RuntimeManagerExited.
Proof.
  destruct (runtime_manager_left (Some 3100%Z) uv_gives_up_quietly (boot true) eq_refl)
    as (new & H0 & H1).
  exists new. split; [exact H0|]. apply H1.
  - intros Hn. vm_compute in Hn. discriminate Hn.
  - exists spec_3100. vm_compute in H0. rewrite <- H0. simpl. tauto.
Defined.

(** X15 at a concrete input. *)
Lemma startup_never_completes_witness :
  fst (_thread_main (Some 3100%Z) uv_hangs (boot true)) = Never /\
  Event_wait (snd (_thread_main (Some 3100%Z) uv_hangs (boot true)))
  = (Never, snd (_thread_main (Some 3100%Z) uv_hangs (boot true))).
Proof.
  destruct (startup_never_completes (Some 3100%Z) uv_hangs (boot true) eq_refl eq_refl)
    as (H1 & H2 & _).
  split; [exact H1|exact H2].
Defined.

(** X16 at a concrete input. *)
Lemma startup_exits_witness :
  fst (_thread_main (Some 3100%Z) uv_exits (boot true)) = Done (Raise SystemExit) /\
  _reflection_ready (snd (_thread_main (Some 3100%Z) uv_exits (boot true))) = true.
Proof.
  destruct (startup_exits (Some 3100%Z) uv_exits SystemExit (boot true)
              eq_refl eq_refl eq_refl) as (H1 & H2 & _).
  split; [exact H1|exact H2].
Defined.

(** X17 at a concrete input. *)
Lemma startup_raises_without_should_exit_witness :
  fst (_thread_main (Some 3100%Z) uv_raises (boot true)) = Done (Raise RuntimeError) /\
  exists new,
    trace (snd (_thread_main (Some 3100%Z) uv_raises (boot true))) = new /\
    In (RuntimeFileWritten spec_3100) new.
Proof.
  refine (startup_raises_without_should_exit (Some 3100%Z) uv_raises RuntimeError
            (boot true) eq_refl _ eq_refl eq_refl eq_refl spec_3100 eq_refl).
  discriminate.
Defined.

(** X18 at a concrete input. *)
Lemma run_main_development_base_exception_witness :
  run_main (Done (Raise KeyboardInterrupt)) None (boot true)
  = (Done (Raise KeyboardInterrupt),
     add_events [Log INFO "Running in development mode."] (boot true)).
Proof.
  exact (run_main_development_base_exception KeyboardInterrupt None (boot true)
           eq_refl eq_refl).
Defined.

End BaseAsyncMore.
